(** * helper.py: the [RepoHandler] notebook helper, embedded and verified

  Source: [src/helper.py].  The class clones a demo repository, parses its
  [README.md] front matter, installs requirements, queries the GPU and
  launches a Gradio or Streamlit demo.  Every method is embedded below as
  a function of an explicit world (file system, external tools) that also
  accumulates the trace of observable actions (prints, spawned processes).

  Python's [str] is modelled as [string]; a character is a code point
  below 256 (the Latin-1 range), which covers what the source inspects:
  [':'], ['/'], the newline, the ANSI escape and ASCII words. *)

From Stdlib Require Import ZArith Lia Bool List Ascii.
From Stdlib Require Strings.String.
From Stdlib Require Import DecimalString.
From Stdlib Require DecimalNat DecimalFacts.
From stdpp Require Import gmap strings.

Local Open Scope Z_scope.

(** ** Python string methods used by the source *)

Module Str.

Definition chr (n : nat) : ascii := ascii_of_nat n.

Definition LF : ascii := chr 10.
Definition CR : ascii := chr 13.
Definition ESC : ascii := chr 27.
Definition SQUOTE : ascii := chr 39.
Definition DQUOTE : ascii := chr 34.
Definition BACKSLASH : ascii := chr 92.

Definition of_char (c : ascii) : string := String c EmptyString.

Definition is_empty (s : string) : bool :=
  match s with EmptyString => true | String _ _ => false end.

(** [s.startswith(p)] *)
Fixpoint startswith (p s : string) : bool :=
  match p, s with
  | EmptyString, _ => true
  | String _ _, EmptyString => false
  | String a p', String b s' => Ascii.eqb a b && startswith p' s'
  end.

(** [s.find(sub)]: index of the first occurrence, or -1. *)
Fixpoint find_from (sub s : string) (i : Z) : Z :=
  if startswith sub s then i
  else match s with
       | EmptyString => -1
       | String _ r => find_from sub r (i + 1)
       end.

Definition find (sub s : string) : Z := find_from sub s 0.

(** [sub in s] *)
Definition contains (sub s : string) : bool := 0 <=? find sub s.

(** [s.split(sep)] for a non-empty separator: [skip] counts the
    characters of a separator occurrence that are still to be passed
    over.  The result is never empty. *)
Fixpoint split_go (sep : string) (skip : nat) (s : string) : list string :=
  match s with
  | EmptyString => [EmptyString]
  | String c r =>
      match skip with
      | S k => split_go sep k r
      | O =>
          if startswith sep s
          then EmptyString :: split_go sep (Nat.pred (String.length sep)) r
          else match split_go sep O r with
               | p :: ps => String c p :: ps
               | [] => [of_char c]
               end
      end
  end.

(** [sep.join(parts)] *)
Fixpoint join (sep : string) (parts : list string) : string :=
  match parts with
  | [] => EmptyString
  | [p] => p
  | p :: ps => p +:+ sep +:+ join sep ps
  end.

(** [s.replace(old, new)]; with an empty [old] Python puts [new] before
    every character and at the end. *)
Fixpoint interleave (new s : string) : string :=
  match s with
  | EmptyString => new
  | String c r => new +:+ String c (interleave new r)
  end.

Definition replace (old new s : string) : string :=
  if is_empty old then interleave new s
  else join new (split_go old O s).

(** [str.isspace] on the code points below 256: TAB, LF, VT, FF, CR,
    FS, GS, RS, US, SPACE, NEL and NBSP. *)
Definition isspace (c : ascii) : bool :=
  let n := nat_of_ascii c in
  ((9 <=? n) && (n <=? 13))%nat || ((28 <=? n) && (n <=? 32))%nat
  || (n =? 133)%nat || (n =? 160)%nat.

Fixpoint lstrip (s : string) : string :=
  match s with
  | EmptyString => EmptyString
  | String c r => if isspace c then lstrip r else s
  end.

Fixpoint rstrip (s : string) : string :=
  match s with
  | EmptyString => EmptyString
  | String c r =>
      let r' := rstrip r in
      if isspace c && is_empty r' then EmptyString else String c r'
  end.

(** [s.strip()] *)
Definition strip (s : string) : string := rstrip (lstrip s).

(** Universal-newline translation of a text file opened with the default
    [newline=None]: CR LF and a lone CR both read as LF. *)
Fixpoint universal_newlines (s : string) : string :=
  match s with
  | EmptyString => EmptyString
  | String c r =>
      if Ascii.eqb c CR then
        match r with
        | String d r' =>
            if Ascii.eqb d LF then String LF (universal_newlines r')
            else String LF (universal_newlines r)
        | EmptyString => of_char LF
        end
      else String c (universal_newlines r)
  end.

(** The lines a file iterator yields: each keeps its terminating LF; a
    last line without LF is yielded as it is. *)
Fixpoint lines_keepends (s : string) : list string :=
  match s with
  | EmptyString => []
  | String c r =>
      if Ascii.eqb c LF then of_char c :: lines_keepends r
      else match lines_keepends r with
           | l :: ls =>
               match r with
               | EmptyString => [of_char c]
               | String _ _ => String c l :: ls
               end
           | [] => [of_char c]
           end
  end.

(** [str(n)] for a non-negative integer. *)
Definition of_nat (n : nat) : string := NilZero.string_of_uint (Nat.to_uint n).

Definition hexdigit (n : nat) : ascii :=
  if (n <? 10)%nat then chr (48 + n) else chr (87 + n).

(** The [\xHH] escape of [repr]. *)
Definition hex_escape (c : ascii) : string :=
  let n := nat_of_ascii c in
  String BACKSLASH (String (chr 120)
    (String (hexdigit (n / 16)) (of_char (hexdigit (n mod 16))))).

(** [str.isprintable] on the code points from 127 up to 255: the C1
    controls, NBSP and the soft hyphen are not printable. *)
Definition high_printable (c : ascii) : bool :=
  let n := nat_of_ascii c in
  negb ((n <=? 160)%nat || (n =? 173)%nat).

Definition repr_char (quote c : ascii) : string :=
  let n := nat_of_ascii c in
  if Ascii.eqb c quote || Ascii.eqb c BACKSLASH then String BACKSLASH (of_char c)
  else if (n =? 9)%nat then String BACKSLASH (of_char (chr 116))
  else if (n =? 10)%nat then String BACKSLASH (of_char (chr 110))
  else if (n =? 13)%nat then String BACKSLASH (of_char (chr 114))
  else if (n <? 32)%nat || (n =? 127)%nat then hex_escape c
  else if (n <? 127)%nat then of_char c
  else if high_printable c then of_char c
  else hex_escape c.

Fixpoint repr_body (quote : ascii) (s : string) : string :=
  match s with
  | EmptyString => EmptyString
  | String c r => repr_char quote c +:+ repr_body quote r
  end.

(** [repr(s)]: single quotes unless the text has a single quote and no
    double quote. *)
Definition repr (s : string) : string :=
  let quote :=
    if contains (of_char SQUOTE) s && negb (contains (of_char DQUOTE) s)
    then DQUOTE else SQUOTE in
  String quote (repr_body quote s +:+ of_char quote).

End Str.


(** ** Python values, exceptions and dictionaries *)

Module Py.

Inductive exn : Type :=
| TypeError
| KeyError (key : string)
| ValueError
| NameError (name : string)
| UnboundLocalError (name : string)
| AttributeError (attr : string)
| OSError (filename strerror : string)
| UnicodeDecodeError
| CalledProcessError (cmd : list string).

(** How a call ends: it returns, it raises, or it is still looping when
    the fuel of the model runs out. *)
Inductive outcome (A : Type) : Type :=
| Ret (a : A)
| Raise (e : exn)
| Spin.

Arguments Ret {A} a.
Arguments Raise {A} e.
Arguments Spin {A}.

(** A [dict] with [str] keys and values, in insertion order; assigning
    to a key that is present keeps its position. *)
Definition pydict : Type := list (string * string).

Fixpoint dict_set (k v : string) (d : pydict) : pydict :=
  match d with
  | [] => [(k, v)]
  | (k', v') :: r =>
      if bool_decide (k' = k) then (k', v) :: r else (k', v') :: dict_set k v r
  end.

Fixpoint dict_get (k : string) (d : pydict) : option string :=
  match d with
  | [] => None
  | (k', v') :: r => if bool_decide (k' = k) then Some v' else dict_get k r
  end.

(** The values the methods handle.  [PyObject] stands for a module, a
    class, a function or an instance, none of which the source inspects. *)
Inductive pyval : Type :=
| PyNone
| PyStr (s : string)
| PyDict (d : pydict)
| PyObject (descr : string).

Definition dict_item_repr (kv : string * string) : string :=
  Str.repr kv.1 +:+ ": " +:+ Str.repr kv.2.

(** [repr] of a dictionary, which is also its [str] and its rendering in
    an f-string. *)
Definition dict_repr (d : pydict) : string :=
  "{" +:+ Str.join ", " (map dict_item_repr d) +:+ "}".

(** The text an f-string puts for [{v}]. *)
Definition format_value (v : pyval) : string :=
  match v with
  | PyNone => "None"
  | PyStr s => s
  | PyDict d => dict_repr d
  | PyObject descr => "<" +:+ descr +:+ ">"
  end.

(** [v[key]] with a [str] key: only a dictionary can be indexed by a
    string; a [str] wants integer indices and [None] has no subscript. *)
Definition getitem (v : pyval) (key : string) : outcome pyval :=
  match v with
  | PyDict d =>
      match dict_get key d with
      | Some x => Ret (PyStr x)
      | None => Raise (KeyError key)
      end
  | PyStr _ | PyNone | PyObject _ => Raise TypeError
  end.

(** Truth value, as [all] and [not] take it. *)
Definition truthy (v : pyval) : bool :=
  match v with
  | PyNone => false
  | PyStr s => negb (Str.is_empty s)
  | PyDict d => match d with [] => false | _ :: _ => true end
  | PyObject _ => true
  end.

(** [v == s] for a string literal [s]. *)
Definition eq_str (v : pyval) (s : string) : bool :=
  match v with
  | PyStr t => bool_decide (t = s)
  | _ => false
  end.

(** [enumerate(l)] *)
Definition enumerate {A : Type} (l : list A) : list (nat * A) :=
  combine (seq 0 (length l)) l.

End Py.

(** ** The world outside the interpreter *)

Module Sys.
Import Py.

(** How a removal fails: the [OSError] it raises (file name and message)
    and the entries below the directory that were already removed when it
    did, each with all below it. *)
Record rm_failure : Type := RmFailure {
  rm_filename : string;
  rm_strerror : string;
  rm_removed : list string
}.

(** A path of the file system: a directory, with the failure that removing
    it meets, if any; a text file; a file that may not be read; a file
    whose bytes stop being UTF-8 after the text [prefix]. *)
Inductive node : Type :=
| Dir (failure : option rm_failure)
| File (text : string)
| Unreadable
| Undecodable (prefix : string).

(** What the process does that can be seen from outside, in order. *)
Inductive event : Type :=
| Print (s : string)
| SubprocessRun (argv : list string)
| GetOutput (cmd : string)
| OsSystem (cmd : string)
| GrCloseAll
| Sleep (seconds : nat)
| Rmtree (path : string).

Record world : Type := World {
  fs : gmap string node;          (* paths are compared as written *)
  ipython : string;               (* str(get_ipython()) *)
  cuda : bool;                    (* torch.cuda.is_available() *)
  smi_csv : option string;        (* stdout of the CSV query; None: it fails *)
  smi_summary : string;           (* getoutput('nvidia-smi') *)
  trace : list event
}.

Definition M (A : Type) : Type := world -> outcome A * world.

Definition ret {A : Type} (a : A) : M A := fun w => (Ret a, w).

Definition raise {A : Type} (e : exn) : M A := fun w => (Raise e, w).

Definition spin {A : Type} : M A := fun w => (Spin, w).

Definition bind {A B : Type} (m : M A) (k : A -> M B) : M B :=
  fun w =>
    match m w with
    | (Ret a, w') => k a w'
    | (Raise e, w') => (Raise e, w')
    | (Spin, w') => (Spin, w')
    end.

Definition lift {A : Type} (o : outcome A) : M A := fun w => (o, w).

(** [try: m  except: handler]; a handler answering [None] does not
    catch the exception. *)
Definition try_except {A : Type} (m : M A) (handler : exn -> option (M A)) : M A :=
  fun w =>
    match m w with
    | (Raise e, w') =>
        match handler e with
        | Some h => h w'
        | None => (Raise e, w')
        end
    | r => r
    end.

(** The world after the events [es]. *)
Definition log (es : list event) (w : world) : world :=
  World (fs w) (ipython w) (cuda w) (smi_csv w) (smi_summary w) (trace w ++ es).

Definition emit (e : event) : M unit := fun w => (Ret tt, log [e] w).

Definition set_fs (f : gmap string node) : M unit :=
  fun w => (Ret tt, World f (ipython w) (cuda w) (smi_csv w) (smi_summary w) (trace w)).

Definition get_fs : M (gmap string node) := fun w => (Ret (fs w), w).

End Sys.

Declare Scope py_scope.
Delimit Scope py_scope with py.
Notation "'let*' x ':=' m 'in' k" := (Sys.bind m (fun x => k))
  (at level 10, x name, m at level 100, k at level 200, only parsing) : py_scope.
Notation "m '>>' k" := (Sys.bind m (fun _ => k))
  (at level 100, k at level 200, right associativity, only parsing) : py_scope.

Module Os.
Import Py Sys.
Local Open Scope py_scope.

(** [os.linesep] on POSIX, where the notebooks run. *)
Definition linesep : string := Str.of_char Str.LF.

Definition print (s : string) : M unit := emit (Print s).

(** [os.path.exists(p)] *)
Definition path_exists (p : string) : M bool :=
  let* f := get_fs in
  ret (match f !! p with Some _ => true | None => false end).

(** Whether [q] is [p] or lies below it. *)
Definition inside (p q : string) : bool :=
  bool_decide (q = p) || Str.startswith (p +:+ "/") q.

(** Whether [q] lies strictly below [p]. *)
Definition below (p q : string) : bool := Str.startswith (p +:+ "/") q.

(** The [OSError] (file name and message) that removing the node at [p]
    meets: none for a directory that can be removed. *)
Definition removal_error (p : string) (n : node) : option (string * string) :=
  match n with
  | Dir None => None
  | Dir (Some failure) => Some (rm_filename failure, rm_strerror failure)
  | File _ | Unreadable | Undecodable _ => Some (p, "Not a directory")
  end.

(** The entries a failing removal of the node has taken before it fails. *)
Definition removal_loss (n : node) : list string :=
  match n with
  | Dir (Some failure) => rm_removed failure
  | _ => []
  end.

(** Whether a removal of [p] that fails after taking [removed] has taken
    [q]: [q] lies strictly below [p], at or below one of the entries. *)
Definition lost (p : string) (removed : list string) (q : string) : bool :=
  below p q && existsb (fun r => inside r q) removed.

(** [shutil.rmtree(p)]: a missing path and a path that is no directory
    raise [OSError] and change nothing; a directory that cannot be removed
    raises [OSError] after losing what was removed before the error, and
    stays; otherwise the directory goes with all below it. *)
Definition rmtree (p : string) : M unit :=
  emit (Rmtree p) >>
  let* f := get_fs in
  match f !! p with
  | None => raise (OSError p "No such file or directory")
  | Some n =>
      match removal_error p n with
      | Some (name, msg) =>
          set_fs (filter (fun kv => lost p (removal_loss n) kv.1 = false) f) >>
          raise (OSError name msg)
      | None => set_fs (filter (fun kv => inside p kv.1 = false) f)
      end
  end.

(** [open(p)] and the iteration over its lines: the lines that are
    yielded, and the exception that ends the iteration, if any. *)
Definition read_lines (p : string) : M (list string * option exn) :=
  let* f := get_fs in
  match f !! p with
  | None => raise (OSError p "No such file or directory")
  | Some (Dir _) => raise (OSError p "Is a directory")
  | Some (File text) => ret (Str.lines_keepends (Str.universal_newlines text), None)
  | Some Unreadable => raise (OSError p "Permission denied")
  | Some (Undecodable prefix) =>
      ret (Str.lines_keepends (Str.universal_newlines prefix), Some UnicodeDecodeError)
  end.

(** [subprocess.run(argv)] without [check]: the exit status is dropped.
    The tools [git] and [pip] are taken to be installed. *)
Definition subprocess_run (argv : list string) : M unit := emit (SubprocessRun argv).

Definition smi_query_argv : list string :=
  ["nvidia-smi"; "--query-gpu=name,memory.total,memory.free"; "--format=csv,noheader"].

(** [subprocess.run(smi_query_argv, stdout=PIPE, check=True).stdout] *)
Definition smi_query : M string :=
  emit (SubprocessRun smi_query_argv) >>
  fun w => match smi_csv w with
           | Some out => (Ret out, w)
           | None => (Raise (CalledProcessError smi_query_argv), w)
           end.

(** [subprocess.getoutput(cmd)]; the source asks for ['nvidia-smi'] only. *)
Definition getoutput (cmd : string) : M string :=
  emit (GetOutput cmd) >> fun w => (Ret (smi_summary w), w).

Definition system (cmd : string) : M unit := emit (OsSystem cmd).

Definition gr_close_all : M unit := emit GrCloseAll.

Definition sleep (seconds : nat) : M unit := emit (Sleep seconds).

Definition cuda_is_available : M bool := fun w => (Ret (cuda w), w).

Definition get_ipython_str : M string := fun w => (Ret (ipython w), w).

End Os.

(** ** The class [RepoHandler] *)

Module Helper.
Import Py Sys Os.
Local Open Scope py_scope.

(** Module constants of line 12. *)
Definition newline : string := Str.of_char Str.LF.
Definition bold : string := String Str.ESC "[1m".
Definition unbold : string := String Str.ESC "[0m".

(** The instance attributes [__init__] assigns. *)
Record RepoHandler : Type := Handler {
  repo_url : string;
  repo_name : string
}.

(** [RepoHandler(repo_url)] *)
Definition init (url : string) : M RepoHandler :=
  let* ip := get_ipython_str in
  (if Str.contains "google.colab" ip
   then print (bold +:+ "Running on Google Colab" +:+ unbold)
   else print (bold +:+ "Running on SageMaker Studio Lab or locally" +:+ unbold)) >>
  ret (Handler url (List.last (Str.split_go "/" O url) EmptyString)).

(** The names the class body binds. *)
Definition class_attrs : list string :=
  ["__init__"; "__str__"; "retrieve_readme"; "clone_repo"; "install_requirements";
   "run_web_demo"; "get_gpu_memory_map"; "install_xformers"].

(** [self.<attr>]: the instance dictionary first, then the class. *)
Definition getattr (self : RepoHandler) (attr : string) : M pyval :=
  if bool_decide (attr = "repo_url") then ret (PyStr (repo_url self))
  else if bool_decide (attr = "repo_name") then ret (PyStr (repo_name self))
  else if bool_decide (attr ∈ class_attrs)
       then ret (PyObject ("bound method RepoHandler." +:+ attr))
       else raise (AttributeError attr).

(** The body of the [for] loop of [retrieve_readme] on one line. *)
Definition readme_line (readme : pydict) (line : string) : outcome pydict :=
  if negb (0 <? Str.find ":" line) || Str.contains "Check" line then Ret readme
  else match Str.split_go ":" O line with
       | [k; v] =>
           Ret (dict_set k (Str.replace (Str.of_char Str.LF) EmptyString (Str.strip v)) readme)
       | _ => Raise ValueError
       end.

Fixpoint readme_loop (lines : list string) (readme : pydict) : outcome pydict :=
  match lines with
  | [] => Ret readme
  | line :: rest =>
      match readme_line readme line with
      | Ret readme' => readme_loop rest readme'
      | other => other
      end
  end.

Definition retrieve_readme (self : RepoHandler) (filename : string) : M pydict :=
  let* found := path_exists filename in
  if found then
    let* content := read_lines filename in
    let* readme := lift (readme_loop content.1 []) in
    match content.2 with
    | Some e => raise e
    | None => ret readme
    end
  else
    print (bold +:+ "No 'readme.md' file" +:+ unbold) >>
    ret [].

(** [__str__], called as a plain method: without the directory it falls
    off its end and returns [None]. *)
Definition dunder_str (self : RepoHandler) : M pyval :=
  let* found := path_exists (repo_name self) in
  if found then
    let* readme := retrieve_readme self (repo_name self +:+ "/README.md") in
    ret (PyStr (format_value (PyDict readme)))
  else
    print (bold +:+ "The repo '" +:+ repo_name self +:+ "' has not been cloned yet." +:+ unbold) >>
    ret PyNone.

Definition clone_repo (self : RepoHandler) (overwrite : bool) : M unit :=
  (if overwrite then
     try_except (rmtree (repo_name self))
       (fun e => match e with
                 | OSError filename strerror =>
                     Some (print ("Error: " +:+ filename +:+ " - " +:+ strerror +:+ "."))
                 | _ => None
                 end)
   else ret tt) >>
  let* found := path_exists (repo_name self) in
  if found then
    print ("Repository " +:+ repo_name self +:+ " has already been cloned.")
  else
    subprocess_run ["git"; "clone"; repo_url self].

Definition get_gpu_memory_map (self : RepoHandler) : M pydict :=
  let* stdout := smi_query in
  let gpu_memory := Str.split_go linesep O (Str.strip stdout) in
  ret (fold_left
         (fun d im => dict_set (bold +:+ "gpu_" +:+ Str.of_nat im.1 +:+ unbold) im.2 d)
         (enumerate gpu_memory) []).

(** Reading a local variable that may not have been assigned. *)
Definition load_local {A : Type} (name : string) (v : option A) : M A :=
  match v with
  | Some x => ret x
  | None => raise (UnboundLocalError name)
  end.

Inductive loop_ctl : Type := Break | Next.

(** The [try] statement inside the loop of [install_xformers]: the
    comparison is evaluated for nothing but the read of [gpu]; the bare
    [except] catches whatever that raises. *)
Definition xformers_try (gpu : option string) : M loop_ctl :=
  try_except
    (let* g := load_local "gpu" gpu in
     let _ := bool_decide (g = "T4") || bool_decide (g = "P100")
              || bool_decide (g = "V100") || bool_decide (g = "A100") in
     ret Break)
    (fun _ => Some (ret Next)).

Definition unsupported_warning : string :=
  bold +:+ " Seems that your GPU is not supported at the moment." +:+ unbold.

(** [while True: ...], run for at most [fuel] iterations. *)
Fixpoint xformers_loop (fuel : nat) (gpu : option string) : M unit :=
  match fuel with
  | O => spin
  | S fuel' =>
      let* c := xformers_try gpu in
      match c with
      | Break => ret tt
      | Next => print unsupported_warning >> sleep 5 >> xformers_loop fuel' gpu
      end
  end.

Definition wheel_url (model : string) : string :=
  "https://github.com/TheLastBen/fast-stable-diffusion/raw/main/precompiled/"
  +:+ model +:+ "/xformers-0.0.13.dev0-py3-none-any.whl".

(** The [if]/[elif] chain of lines 143 to 146: [gpu] stays unassigned
    when no model name occurs in the text. *)
Definition detect_gpu (s : string) : option string :=
  if Str.contains "T4" s then Some "T4"
  else if Str.contains "P100" s then Some "P100"
  else if Str.contains "V100" s then Some "V100"
  else if Str.contains "A100" s then Some "A100"
  else None.

Definition install_xformers (fuel : nat) (self : RepoHandler) : M unit :=
  subprocess_run ["pip"; "install"; "-U"; "--pre"; "triton"] >>
  let* s := getoutput "nvidia-smi" in
  let gpu := detect_gpu s in
  xformers_loop fuel gpu >>
  let* g := load_local "gpu" gpu in
  let precompiled_wheels :=
    if bool_decide (g = "T4") then Some (wheel_url "T4")
    else if bool_decide (g = "P100") then Some (wheel_url "P100")
    else if bool_decide (g = "V100") then Some (wheel_url "V100")
    else if bool_decide (g = "A100") then Some (wheel_url "A100")
    else None in
  let* url := load_local "precompiled_wheels" precompiled_wheels in
  subprocess_run ["pip"; "install"; "-q"; url].

(** [not requirements_file]: [None] and the empty string are false. *)
Definition install_requirements (fuel : nat) (self : RepoHandler)
    (requirements_file : option string) (with_xformers : bool) : M unit :=
  let default :=
    let* a := getattr self "repo_name" in
    let* b := getattr self "requirements_file" in
    ret (format_value a +:+ "/" +:+ format_value b) in
  let* path :=
    match requirements_file with
    | Some p => if Str.is_empty p then default else ret p
    | None => default
    end in
  subprocess_run ["pip"; "install"; "-r"; path] >>
  if with_xformers then install_xformers fuel self else ret tt.

(** The global names of the module: its imports, its constants and the
    class. *)
Definition module_globals : list (string * pyval) :=
  [("os", PyObject "module os"); ("sys", PyObject "module sys");
   ("shutil", PyObject "module shutil"); ("subprocess", PyObject "module subprocess");
   ("gr", PyObject "module gradio"); ("path_exists", PyObject "function exists");
   ("Dict", PyObject "typing.Dict"); ("newline", PyStr newline);
   ("bold", PyStr bold); ("unbold", PyStr unbold);
   ("RepoHandler", PyObject "class RepoHandler")].

Fixpoint assoc {A : Type} (k : string) (l : list (string * A)) : option A :=
  match l with
  | [] => None
  | (k', v) :: r => if bool_decide (k' = k) then Some v else assoc k r
  end.

(** Reading a name inside a method: the locals, then the module globals.
    (The builtins come last; they bind none of the names read this way.) *)
Definition load_name (locals : list (string * pyval)) (name : string) : M pyval :=
  match assoc name locals with
  | Some v => ret v
  | None =>
      match assoc name module_globals with
      | Some v => ret v
      | None => raise (NameError name)
      end
  end.

Definition static_apps_message : string :=
  "This notebook will not work with static apps hosted on "
  +:+ String Str.DQUOTE "Spaces" +:+ Str.of_char Str.DQUOTE.

(** The local names of [run_web_demo] once [readme] is assigned. *)
Definition demo_locals (aws_domain aws_region readme : pyval) : list (string * pyval) :=
  [("self", PyObject "RepoHandler object"); ("aws_domain", aws_domain);
   ("aws_region", aws_region); ("torch", PyObject "module torch");
   ("readme", readme)].

(** Lines 102 to 112: the access URL and the dispatch on the manifest. *)
Definition launch_demo (self : RepoHandler) (aws_domain aws_region readme : pyval) : M unit :=
  print "Wait a few seconds, then click the link below to open your application:" >>
  let locals := demo_locals aws_domain aws_region readme in
  let* domain := load_name locals "domain" in
  let* region := load_name locals "region" in
  (if truthy domain && truthy region then
     print (bold +:+ "https://" +:+ format_value domain +:+ ".studio."
            +:+ format_value region
            +:+ ".sagemaker.aws/studiolab/default/jupyter/proxy/6006/" +:+ unbold)
   else ret tt) >>
  let* sdk := lift (getitem readme "sdk") in
  if eq_str sdk "gradio" then
    gr_close_all >>
    let* app_file := lift (getitem readme "app_file") in
    system ("export GRADIO_SERVER_PORT=6006 && cd " +:+ repo_name self
            +:+ " && python " +:+ format_value app_file)
  else
    let* title := lift (getitem readme "title") in
    if eq_str title "streamlit" then
      let* app_file := lift (getitem readme "app_file") in
      system ("cd " +:+ repo_name self +:+ " && streamlit run "
              +:+ format_value app_file +:+ " --server.port 6006")
    else
      print static_apps_message.

Definition run_web_demo (self : RepoHandler) (aws_domain aws_region : pyval) : M unit :=
  let* gpu := cuda_is_available in
  (if gpu then get_gpu_memory_map self >> ret tt
   else print (bold +:+ "Not using the GPU" +:+ unbold)) >>
  let* readme := dunder_str self in
  let* title := lift (getitem readme "title") in
  print (bold +:+ "Demo: " +:+ format_value title +:+ newline +:+ unbold) >>
  launch_demo self aws_domain aws_region readme.

(** A launch of the demo: closing the running Gradio servers or starting
    a shell command. *)
Definition is_launch (e : event) : bool :=
  match e with
  | OsSystem _ | GrCloseAll => true
  | _ => false
  end.

End Helper.

(** ** Concrete notebooks used to run the methods *)

Module Scenario.
Import Py Sys Os Helper.

Definition nl : string := Str.of_char Str.LF.

Definition demo : RepoHandler :=
  Handler "https://huggingface.co/spaces/user/demo" "demo".

(** The front matter of a Gradio space, with the line the parser skips. *)
Definition gradio_readme : string :=
  "---" +:+ nl +:+ "title: Demo" +:+ nl +:+ "sdk: gradio" +:+ nl
  +:+ "app_file: app.py" +:+ nl +:+ "---" +:+ nl
  +:+ "Check out the configuration reference at https://huggingface.co/docs" +:+ nl.

(** The same without a title. *)
Definition untitled_readme : string :=
  "---" +:+ nl +:+ "sdk: gradio" +:+ nl +:+ "app_file: app.py" +:+ nl +:+ "---" +:+ nl.

(** A manifest whose value is a URL: two colons on one line. *)
Definition link_readme : string :=
  "title: Demo" +:+ nl +:+ "homepage: https://example.org" +:+ nl.

Definition cloned (readme : string) : gmap string node :=
  <["demo" := Dir None]> (<["demo/README.md" := File readme]> ∅).

(** A clone whose removal fails at a protected file, after the manifest
    has gone. *)
Definition locked : gmap string node :=
  <["demo" := Dir (Some (RmFailure "demo/model.bin" "Permission denied"
                                   ["demo/README.md"]))]>
    (<["demo/README.md" := File gradio_readme]>
       (<["demo/model.bin" := File "weights"]> ∅)).

Definition two_gpus : string :=
  "Tesla T4, 15109 MiB, 15000 MiB" +:+ nl +:+ "Tesla T4, 15109 MiB, 14000 MiB" +:+ nl.

(** A notebook without GPU. *)
Definition cpu_world (f : gmap string node) : world :=
  World f "<ipykernel.zmqshell.ZMQInteractiveShell>" false None
        "NVIDIA-SMI has failed" [].

(** A notebook with two T4 cards. *)
Definition t4_world (f : gmap string node) : world :=
  World f "<ipykernel.zmqshell.ZMQInteractiveShell>" true (Some two_gpus)
        "| 0 Tesla T4 Off |" [].

(** A notebook whose card is none of the four known models. *)
Definition k80_world : world :=
  World ∅ "<google.colab._shell.Shell>" true (Some ("Tesla K80, 11441 MiB, 11441 MiB" +:+ nl))
        "| 0 Tesla K80 Off |" [].

End Scenario.

(** A CSV record as [nvidia-smi] prints it: not empty, on one line, with
    no blank at either end. *)
Definition csv_line (l : string) : bool :=
  negb (Str.is_empty l) && negb (Str.contains Os.linesep l)
  && bool_decide (Str.lstrip l = l) && bool_decide (Str.rstrip l = l).

(** The label of device [i] in the GPU memory map. *)
Definition gpu_label (i : nat) : string :=
  Helper.bold +:+ "gpu_" +:+ Str.of_nat i +:+ Helper.unbold.

(** The access URL of the cloud studio for a domain and a region. *)
Definition studio_url (domain region : string) : string :=
  "https://" +:+ domain +:+ ".studio." +:+ region
  +:+ ".sagemaker.aws/studiolab/default/jupyter/proxy/6006/".

(** One turn of the waiting loop, as seen from outside. *)
Definition warning_round : list Sys.event :=
  [Sys.Print Helper.unsupported_warning; Sys.Sleep 5].

Fixpoint rounds (n : nat) : list Sys.event :=
  match n with
  | O => []
  | S n' => warning_round ++ rounds n'
  end.

(** What reading the manifest at [p] comes to when [p] is the node [n]:
    the parse of its lines, or the exception of [open] or of the decoder,
    which comes after the lines that could be read. *)
Definition read_outcome (p : string) (n : Sys.node) : Py.outcome Py.pydict :=
  match n with
  | Sys.Dir _ => Py.Raise (Py.OSError p "Is a directory")
  | Sys.File text =>
      Helper.readme_loop (Str.lines_keepends (Str.universal_newlines text)) []
  | Sys.Unreadable => Py.Raise (Py.OSError p "Permission denied")
  | Sys.Undecodable prefix =>
      match Helper.readme_loop (Str.lines_keepends (Str.universal_newlines prefix)) [] with
      | Py.Ret _ => Py.Raise Py.UnicodeDecodeError
      | other => other
      end
  end.

(** [s.count(c)] for one character. *)
Fixpoint count_char (c : ascii) (s : string) : nat :=
  match s with
  | EmptyString => O
  | String x r => (if Ascii.eqb c x then 1 else 0)%nat + count_char c r
  end.

(** A text made of blanks only. *)
Fixpoint all_space (s : string) : bool :=
  match s with
  | EmptyString => true
  | String c r => Str.isspace c && all_space r
  end.

(** The GPU models [install_xformers] has a wheel for, in the order in
    which it looks for them. *)
Definition known_models : list string := ["T4"; "P100"; "V100"; "A100"].

(** The keys of a dictionary, in order. *)
Definition dict_keys (d : Py.pydict) : list string := map fst d.

(** * Properties *)

Import Py Sys Os Helper.

(** ** Running the monad *)

Ltac run :=
  unfold clone_repo, install_requirements, dunder_str, retrieve_readme,
    get_gpu_memory_map, getattr, rmtree, read_lines, path_exists, smi_query,
    getoutput, subprocess_run, system, gr_close_all, sleep, print,
    cuda_is_available, load_local, load_name, try_except, bind, ret, raise,
    spin, lift, emit, set_fs, get_fs; cbn.

(** ** Strings *)

Section StringFacts.

Lemma append_cons (c : ascii) (a b : string) : String c a +:+ b = String c (a +:+ b).
Proof. reflexivity. Qed.

Lemma append_nil_l (b : string) : EmptyString +:+ b = b.
Proof. reflexivity. Qed.

Lemma find_from_range (sub s : string) (i : Z) :
  Str.find_from sub s i = -1 \/ i <= Str.find_from sub s i.
Proof.
  revert i. induction s as [|c r IH]; intros i; simpl.
  - destruct (Str.startswith sub EmptyString); [right; lia | left; reflexivity].
  - destruct (Str.startswith sub (String c r)); [right; lia |].
    destruct (IH (i + 1)) as [H | H]; [left; exact H | right; lia].
Qed.

Lemma find_from_absent (sub s : string) (i j : Z) :
  0 <= i -> 0 <= j -> Str.find_from sub s i = -1 -> Str.find_from sub s j = -1.
Proof.
  revert i j. induction s as [|c r IH]; intros i j Hi Hj; simpl.
  - destruct (Str.startswith sub EmptyString); [lia | reflexivity].
  - destruct (Str.startswith sub (String c r)); [lia |].
    intros H. apply (IH (i + 1) (j + 1)); [lia | lia | exact H].
Qed.

Lemma contains_false_find (sub s : string) :
  Str.contains sub s = false <-> Str.find sub s = -1.
Proof.
  unfold Str.contains, Str.find. split; intros H.
  - destruct (find_from_range sub s 0) as [E | E]; [exact E |].
    apply Z.leb_gt in H. lia.
  - rewrite H. reflexivity.
Qed.

(** A text without the character [c] neither starts with it nor has it
    further on. *)
Lemma contains_char_cons (c x : ascii) (r : string) :
  Str.contains (Str.of_char c) (String x r) = false ->
  Ascii.eqb c x = false /\ Str.contains (Str.of_char c) r = false.
Proof.
  rewrite !contains_false_find. unfold Str.find. simpl.
  destruct (Ascii.eqb c x); simpl.
  - discriminate.
  - intros H. split; [reflexivity |].
    apply (find_from_absent _ _ (0 + 1) 0); [lia | lia | exact H].
Qed.

Lemma split_go_no_sep (c : ascii) (l : string) :
  Str.contains (Str.of_char c) l = false ->
  Str.split_go (Str.of_char c) O l = [l].
Proof.
  induction l as [|x r IH]; intros H; [reflexivity |].
  apply contains_char_cons in H as [Hx Hr].
  simpl. rewrite Hx. simpl. rewrite (IH Hr). reflexivity.
Qed.

Lemma split_go_app (c : ascii) (l rest : string) :
  Str.contains (Str.of_char c) l = false ->
  Str.split_go (Str.of_char c) O (l +:+ String c rest)
  = l :: Str.split_go (Str.of_char c) O rest.
Proof.
  induction l as [|x r IH]; intros H.
  - rewrite append_nil_l. simpl. rewrite Ascii.eqb_refl. reflexivity.
  - apply contains_char_cons in H as [Hx Hr].
    rewrite append_cons. simpl. rewrite Hx. simpl. rewrite (IH Hr). reflexivity.
Qed.

Lemma lstrip_app (l rest : string) :
  Str.is_empty l = false -> Str.lstrip l = l -> Str.lstrip (l +:+ rest) = l +:+ rest.
Proof.
  destruct l as [|x r]; [discriminate |]. intros _ H.
  rewrite append_cons. simpl in *.
  destruct (Str.isspace x); [| reflexivity].
  exfalso. assert (L : forall s, (String.length (Str.lstrip s) <= String.length s)%nat).
  { clear. induction s as [|y s IH]; simpl; [lia |].
    destruct (Str.isspace y); simpl; lia. }
  specialize (L r). rewrite H in L. simpl in L. lia.
Qed.

Lemma rstrip_snoc_space (l : string) (c : ascii) :
  Str.isspace c = true -> Str.rstrip (l +:+ Str.of_char c) = Str.rstrip l.
Proof.
  intros Hc. induction l as [|x r IH].
  - rewrite append_nil_l. simpl. rewrite Hc. reflexivity.
  - rewrite append_cons. simpl. rewrite IH. reflexivity.
Qed.

Lemma rstrip_app (a b : string) :
  Str.is_empty (Str.rstrip b) = false -> Str.rstrip (a +:+ b) = a +:+ Str.rstrip b.
Proof.
  intros Hb. induction a as [|x r IH].
  - reflexivity.
  - rewrite !append_cons. simpl. rewrite IH.
    destruct r; simpl; rewrite ?append_nil_l, ?Hb, ?andb_false_r; reflexivity.
Qed.

Lemma append_assoc (a b c : string) : (a +:+ b) +:+ c = a +:+ (b +:+ c).
Proof. induction a as [|x a IH]; [reflexivity |]. rewrite !append_cons, IH. reflexivity. Qed.

End StringFacts.

(** ** The waiting loop of [install_xformers] *)

(** With [gpu] unassigned every turn of the loop ends in the handler, so
    the loop uses up any fuel. *)
Lemma xformers_loop_unbound (fuel : nat) (w : world) :
  xformers_loop fuel None w = (Spin, log (rounds fuel) w).
Proof.
  revert w. induction fuel as [|n IH]; intros w.
  - cbn. unfold spin, log. rewrite app_nil_r. destruct w; reflexivity.
  - cbn [xformers_loop]. unfold xformers_try. run.
    rewrite IH. unfold log. cbn. rewrite <- !app_assoc. reflexivity.
Qed.

(** With [gpu] assigned the first turn leaves the loop. *)
Lemma xformers_loop_bound (fuel : nat) (g : string) (w : world) :
  xformers_loop (S fuel) (Some g) w = (Ret tt, w).
Proof. reflexivity. Qed.

Lemma detect_gpu_none (s : string) :
  Str.contains "T4" s = false -> Str.contains "P100" s = false ->
  Str.contains "V100" s = false -> Str.contains "A100" s = false ->
  detect_gpu s = None.
Proof. intros H1 H2 H3 H4. unfold detect_gpu. rewrite H1, H2, H3, H4. reflexivity. Qed.

(** C8.  When the summary of [nvidia-smi] has none of the names T4, P100,
    V100 and A100, [install_xformers] does not end: whatever number of
    iterations the loop is given, it has neither returned nor raised after
    them, and each one printed the warning and slept 5 seconds. *)
Theorem install_xformers_never_ends (fuel : nat) (self : RepoHandler) (w : world) :
  Str.contains "T4" (smi_summary w) = false ->
  Str.contains "P100" (smi_summary w) = false ->
  Str.contains "V100" (smi_summary w) = false ->
  Str.contains "A100" (smi_summary w) = false ->
  (install_xformers fuel self w).1 = Spin
  /\ trace (install_xformers fuel self w).2
     = trace w
       ++ [SubprocessRun ["pip"; "install"; "-U"; "--pre"; "triton"];
           GetOutput "nvidia-smi"]
       ++ rounds fuel.
Proof.
  intros H1 H2 H3 H4. unfold install_xformers. run.
  rewrite (detect_gpu_none _ H1 H2 H3 H4), xformers_loop_unbound. cbn.
  split; [reflexivity |]. rewrite <- !app_assoc. reflexivity.
Qed.

Lemma install_xformers_never_ends_witness :
  (install_xformers 4 Scenario.demo Scenario.k80_world).1 = Spin
  /\ trace (install_xformers 4 Scenario.demo Scenario.k80_world).2
     = [SubprocessRun ["pip"; "install"; "-U"; "--pre"; "triton"];
        GetOutput "nvidia-smi"] ++ rounds 4.
Proof.
  apply (install_xformers_never_ends 4 Scenario.demo Scenario.k80_world); reflexivity.
Defined.

(** C6.  Called without a requirements path, [install_requirements] reads
    the attribute [requirements_file], which no code assigns: the call
    raises [AttributeError] and [pip] is not started, where the docstring
    promises the default [requirements.txt]. *)
Theorem install_requirements_default_raises
    (fuel : nat) (self : RepoHandler) (with_xformers : bool) (w : world) :
  install_requirements fuel self None with_xformers w
  = (Raise (AttributeError "requirements_file"), w).
Proof. reflexivity. Qed.








(** A removal that fails half way has taken the manifest and left the
    directory with the protected file; nothing is cloned. *)
Example clone_repo_locked :
  let r := clone_repo Scenario.demo true (Scenario.cpu_world Scenario.locked) in
  r.1 = Ret tt
  /\ trace r.2 = [Rmtree "demo"; Print "Error: demo/model.bin - Permission denied.";
                  Print "Repository demo has already been cloned."]
  /\ fs r.2 !! "demo/README.md" = None
  /\ fs r.2 !! "demo/model.bin" = Some (File "weights")
  /\ is_Some (fs r.2 !! "demo").
Proof. repeat split; try reflexivity. eexists. reflexivity. Qed.

(** What is below the removed directory goes with it. *)
Example clone_repo_overwrite_removes_readme :
  fs (clone_repo Scenario.demo true
        (Scenario.cpu_world (Scenario.cloned Scenario.gradio_readme))).2
  !! "demo/README.md" = None.
Proof. reflexivity. Qed.

(** ** The GPU memory map *)

Lemma csv_line_spec (l : string) :
  csv_line l = true ->
  Str.is_empty l = false /\ Str.contains linesep l = false
  /\ Str.lstrip l = l /\ Str.rstrip l = l.
Proof.
  unfold csv_line. rewrite !andb_true_iff, !negb_true_iff, !bool_decide_eq_true.
  tauto.
Qed.

Lemma strip_two_lines (l1 l2 : string) :
  csv_line l1 = true -> csv_line l2 = true ->
  Str.strip (l1 +:+ linesep +:+ l2 +:+ linesep) = l1 +:+ linesep +:+ l2.
Proof.
  intros (E1 & _ & L1 & _)%csv_line_spec (E2 & _ & _ & R2)%csv_line_spec.
  unfold Str.strip. rewrite (lstrip_app _ _ E1 L1).
  replace (l1 +:+ linesep +:+ l2 +:+ linesep)
    with ((l1 +:+ linesep +:+ l2) +:+ linesep)
    by (rewrite !append_assoc; reflexivity).
  unfold linesep. rewrite rstrip_snoc_space by reflexivity.
  rewrite rstrip_app.
  - f_equal. unfold Str.of_char. rewrite append_cons, append_nil_l.
    cbn [Str.rstrip]. rewrite R2, E2, andb_false_r. reflexivity.
  - unfold Str.of_char. rewrite append_cons, append_nil_l.
    cbn [Str.rstrip]. rewrite R2, E2, andb_false_r. reflexivity.
Qed.

Lemma split_two_lines (l1 l2 : string) :
  csv_line l1 = true -> csv_line l2 = true ->
  Str.split_go linesep O (l1 +:+ linesep +:+ l2) = [l1; l2].
Proof.
  intros (_ & N1 & _)%csv_line_spec (_ & N2 & _)%csv_line_spec.
  unfold linesep in *. 
  change (l1 +:+ Str.of_char Str.LF +:+ l2) with (l1 +:+ String Str.LF l2).
  rewrite (split_go_app _ _ _ N1), (split_go_no_sep _ _ N2). reflexivity.
Qed.

(** C9.  When the query prints two CSV records, one per line,
    [get_gpu_memory_map] returns a dictionary of exactly two entries: the
    two records as they are, under the labels of the indices 0 and 1. *)
Theorem gpu_memory_map_two_devices (self : RepoHandler) (w : world) (l1 l2 : string) :
  csv_line l1 = true -> csv_line l2 = true ->
  smi_csv w = Some (l1 +:+ linesep +:+ l2 +:+ linesep) ->
  (get_gpu_memory_map self w).1 = Ret [(gpu_label 0, l1); (gpu_label 1, l2)]
  /\ gpu_label 0 <> gpu_label 1.
Proof.
  intros H1 H2 Hw. split; [| discriminate].
  run. rewrite Hw. cbn.
  rewrite (strip_two_lines _ _ H1 H2), (split_two_lines _ _ H1 H2).
  reflexivity.
Qed.

Lemma gpu_memory_map_two_devices_witness :
  (get_gpu_memory_map Scenario.demo (Scenario.t4_world ∅)).1
  = Ret [(gpu_label 0, "Tesla T4, 15109 MiB, 15000 MiB");
         (gpu_label 1, "Tesla T4, 15109 MiB, 14000 MiB")]
  /\ gpu_label 0 <> gpu_label 1.
Proof.
  apply (gpu_memory_map_two_devices Scenario.demo (Scenario.t4_world ∅)
           "Tesla T4, 15109 MiB, 15000 MiB" "Tesla T4, 15109 MiB, 14000 MiB");
    reflexivity.
Defined.

(** The [strip] before the split touches the two ends of the output only:
    a blank before the first record is dropped. *)
Example gpu_memory_map_outer_blank :
  (get_gpu_memory_map Scenario.demo
     (World ∅ EmptyString true (Some (" A, 1 MiB, 1 MiB" +:+ linesep +:+ "B, 2 MiB, 2 MiB" +:+ linesep))
            EmptyString [])).1
  = Ret [(gpu_label 0, "A, 1 MiB, 1 MiB"); (gpu_label 1, "B, 2 MiB, 2 MiB")].
Proof. reflexivity. Qed.

(** ** The manifest and the demo *)

Lemma log_log (es1 es2 : list event) (w : world) :
  log es2 (log es1 w) = log (es1 ++ es2) w.
Proof. unfold log. cbn. rewrite app_assoc. reflexivity. Qed.

Lemma readme_loop_ends (lines : list string) (d : pydict) : readme_loop lines d <> Spin.
Proof.
  revert d. induction lines as [|l ls IH]; intros d; cbn; [discriminate |].
  unfold readme_line. destruct (negb _ || _); [apply IH |].
  destruct (Str.split_go ":" 0 l) as [|k [|v [|? ?]]]; try discriminate. apply IH.
Qed.

Lemma retrieve_readme_run (self : RepoHandler) (p : string) (w : world) :
  retrieve_readme self p w
  = match fs w !! p with
    | None => (Ret [], log [Print (bold +:+ "No 'readme.md' file" +:+ unbold)] w)
    | Some n => (read_outcome p n, w)
    end.
Proof.
  run. destruct (fs w !! p) as [[?|text| |prefix]|] eqn:E; cbn; rewrite ?E; cbn;
    try reflexivity.
  - destruct (readme_loop _ _); reflexivity.
  - destruct (readme_loop _ _); reflexivity.
Qed.

Lemma read_outcome_ends (p : string) (n : node) : read_outcome p n <> Spin.
Proof.
  destruct n as [?|text| |prefix]; cbn; try discriminate.
  - apply readme_loop_ends.
  - pose proof (readme_loop_ends (Str.lines_keepends (Str.universal_newlines prefix)) []).
    destruct (readme_loop _ _); congruence.
Qed.

(** [__str__] step by step: what it returns and what it prints. *)
Lemma dunder_str_run (self : RepoHandler) (w : world) :
  dunder_str self w
  = match fs w !! repo_name self with
    | None =>
        (Ret PyNone,
         log [Print (bold +:+ "The repo '" +:+ repo_name self
                     +:+ "' has not been cloned yet." +:+ unbold)] w)
    | Some _ =>
        match fs w !! (repo_name self +:+ "/README.md") with
        | None =>
            (Ret (PyStr (dict_repr [])),
             log [Print (bold +:+ "No 'readme.md' file" +:+ unbold)] w)
        | Some n =>
            (match read_outcome (repo_name self +:+ "/README.md") n with
             | Ret d => Ret (PyStr (dict_repr d))
             | Raise e => Raise e
             | Spin => Spin
             end, w)
        end
    end.
Proof.
  unfold dunder_str, path_exists, get_fs. unfold bind at 1 2. unfold ret at 1. cbn.
  destruct (fs w !! repo_name self); [| reflexivity].
  unfold bind. rewrite retrieve_readme_run.
  destruct (fs w !! (repo_name self +:+ "/README.md")) as [nd|]; [| reflexivity].
  destruct (read_outcome _ nd); reflexivity.
Qed.

(** [__str__] never hands out a dictionary. *)
Lemma dunder_str_value (self : RepoHandler) (w : world) (v : pyval) :
  (dunder_str self w).1 = Ret v -> v = PyNone \/ exists s, v = PyStr s.
Proof.
  rewrite dunder_str_run.
  destruct (fs w !! repo_name self); [| intros [= <-]; left; reflexivity].
  destruct (fs w !! (repo_name self +:+ "/README.md")) as [nd|]; cbn.
  - destruct (read_outcome _ nd); intros [= <-]. right. eauto.
  - intros [= <-]. right. eauto.
Qed.

Lemma dunder_str_ends (self : RepoHandler) (w : world) : (dunder_str self w).1 <> Spin.
Proof.
  rewrite dunder_str_run. destruct (fs w !! repo_name self); [| discriminate].
  destruct (fs w !! (repo_name self +:+ "/README.md")) as [nd|]; cbn; [| discriminate].
  pose proof (read_outcome_ends (repo_name self +:+ "/README.md") nd).
  destruct (read_outcome _ nd); congruence.
Qed.

(** Its result is a matter of the file system alone. *)
Lemma dunder_str_log (self : RepoHandler) (es : list event) (w : world) :
  (dunder_str self (log es w)).1 = (dunder_str self w).1.
Proof. rewrite !dunder_str_run. cbn. repeat case_match; reflexivity. Qed.

(** [__str__] prints at most; it starts nothing. *)
Lemma dunder_str_quiet (self : RepoHandler) (w : world) :
  exists new, (dunder_str self w).2 = log new w
              /\ Forall (fun e => is_launch e = false) new.
Proof.
  assert (N : w = log [] w) by (destruct w; unfold log; cbn; rewrite app_nil_r; reflexivity).
  rewrite dunder_str_run. repeat case_match; cbn;
    try (eexists; split; [reflexivity | repeat constructor]);
    exists []; split; auto.
Qed.

Lemma getitem_not_dict (v : pyval) (key : string) :
  v = PyNone \/ (exists s, v = PyStr s) -> getitem v key = Raise TypeError.
Proof. intros [-> | [s ->]]; reflexivity. Qed.

(** From the call of [__str__] on, [run_web_demo] does nothing but fail
    at the subscript, whatever follows it in the source. *)
Lemma subscript_after_str (self : RepoHandler) (k : pyval -> pyval -> M unit) (w : world) :
  let r := bind (dunder_str self)
             (fun readme => bind (lift (getitem readme "title")) (k readme)) w in
  r.2 = (dunder_str self w).2
  /\ r.1 = match (dunder_str self w).1 with
           | Ret _ => Raise TypeError
           | Raise e => Raise e
           | Spin => Spin
           end.
Proof.
  unfold bind, lift. pose proof (dunder_str_value self w) as Hv.
  destruct (dunder_str self w) as [[v|e|] w2]; cbn in *; auto.
  rewrite (getitem_not_dict v "title" (Hv v eq_refl)). auto.
Qed.

(** C4.  [run_web_demo] takes the manifest from [__str__].  Whenever
    [__str__] returns, it returns the rendering of the parsed dictionary
    as a [str] (the directory exists) or [None] (it does not), never a
    dictionary; so [readme['title']] raises [TypeError] on whatever
    [__str__] returns.  The call always ends in an exception and never
    issues a launch; the exception is [TypeError] whenever the GPU report
    and [__str__] both return. *)
Theorem run_web_demo_type_error
    (self : RepoHandler) (aws_domain aws_region : pyval) (w : world) :
  (dunder_str self w).1
  = match fs w !! repo_name self with
    | None => Ret PyNone
    | Some _ =>
        match (retrieve_readme self (repo_name self +:+ "/README.md") w).1 with
        | Ret d => Ret (PyStr (dict_repr d))
        | Raise e => Raise e
        | Spin => Spin
        end
    end
  /\ (forall v, (dunder_str self w).1 = Ret v -> getitem v "title" = Raise TypeError)
  /\ (exists new,
        trace (run_web_demo self aws_domain aws_region w).2 = trace w ++ new
        /\ Forall (fun e => is_launch e = false) new)
  /\ (exists e, (run_web_demo self aws_domain aws_region w).1 = Raise e)
  /\ ((cuda w = true -> is_Some (smi_csv w)) ->
      (exists v, (dunder_str self w).1 = Ret v) ->
      (run_web_demo self aws_domain aws_region w).1 = Raise TypeError).
Proof.
  split.
  { rewrite dunder_str_run, retrieve_readme_run.
    repeat case_match; cbn in *; congruence. }
  split; [intros v Hv; apply getitem_not_dict, (dunder_str_value self w v Hv) |].
  assert (Tail : forall (es : list event),
    Forall (fun e => is_launch e = false) es ->
    forall (k : pyval -> pyval -> M unit), let r := bind (dunder_str self)
                (fun readme => bind (lift (getitem readme "title")) (k readme)) (log es w) in
    (exists new, trace r.2 = trace w ++ new /\ Forall (fun e => is_launch e = false) new)
    /\ (exists e, r.1 = Raise e)
    /\ ((exists v, (dunder_str self w).1 = Ret v) -> r.1 = Raise TypeError)).
  { intros es Hes k r.
    destruct (subscript_after_str self k (log es w)) as [H2 H1]. fold r in H1, H2.
    rewrite H1, H2, dunder_str_log.
    destruct (dunder_str_quiet self (log es w)) as (new & -> & Hnew).
    split; [| split].
    - exists (es ++ new). rewrite log_log. split; [reflexivity |].
      apply Forall_app; auto.
    - pose proof (dunder_str_ends self w).
      destruct (dunder_str self w).1; [eauto | eauto | congruence].
    - intros [v ->]. reflexivity. }
  set (k := fun readme title : pyval =>
              bind (print (bold +:+ "Demo: " +:+ format_value title +:+ newline +:+ unbold))
                   (fun _ => launch_demo self aws_domain aws_region readme)).
  destruct (cuda w) eqn:Hc; [destruct (smi_csv w) as [out|] eqn:Hs |].
  - destruct (Tail [SubprocessRun smi_query_argv] ltac:(repeat constructor) k)
      as (T1 & T2 & T3).
    replace (run_web_demo self aws_domain aws_region w)
      with (bind (dunder_str self)
              (fun readme => bind (lift (getitem readme "title")) (k readme))
              (log [SubprocessRun smi_query_argv] w)).
    + split; [exact T1 | split; [exact T2 | intros _; exact T3]].
    + unfold run_web_demo, get_gpu_memory_map, smi_query, cuda_is_available.
      unfold bind at 3 4 5 6 7. unfold emit, ret. rewrite Hc. cbn. rewrite Hs. reflexivity.
  - replace (run_web_demo self aws_domain aws_region w)
      with (Raise (CalledProcessError smi_query_argv) : outcome unit,
            log [SubprocessRun smi_query_argv] w).
    + split; [eexists; split; [reflexivity | repeat constructor] |].
      split; [eauto |]. intros Hg. destruct (Hg eq_refl) as [? [=]].
    + unfold run_web_demo, get_gpu_memory_map, smi_query, cuda_is_available, bind, emit.
      rewrite Hc. cbn. rewrite Hs. reflexivity.
  - destruct (Tail [Print (bold +:+ "Not using the GPU" +:+ unbold)]
                ltac:(repeat constructor) k) as (T1 & T2 & T3).
    replace (run_web_demo self aws_domain aws_region w)
      with (bind (dunder_str self)
              (fun readme => bind (lift (getitem readme "title")) (k readme))
              (log [Print (bold +:+ "Not using the GPU" +:+ unbold)] w)).
    + split; [exact T1 | split; [exact T2 | intros _; exact T3]].
    + unfold run_web_demo, cuda_is_available, print.
      unfold bind at 3 4. unfold emit. rewrite Hc. reflexivity.
Qed.

Lemma run_web_demo_type_error_witness :
  (run_web_demo Scenario.demo PyNone PyNone
     (Scenario.cpu_world (Scenario.cloned Scenario.gradio_readme))).1 = Raise TypeError.
Proof.
  apply (run_web_demo_type_error Scenario.demo PyNone PyNone
           (Scenario.cpu_world (Scenario.cloned Scenario.gradio_readme))).
  - discriminate.
  - eexists. reflexivity.
Defined.

(** C4, where the unamended statement fails.  The directory exists, yet
    [__str__] does not return: the second colon of a manifest line makes
    the parse raise [ValueError], and [run_web_demo] ends with it instead
    of a [TypeError]. *)
Lemma run_web_demo_value_error :
  let w := Scenario.cpu_world (Scenario.cloned Scenario.link_readme) in
  fs w !! repo_name Scenario.demo = Some (Dir None)
  /\ (dunder_str Scenario.demo w).1 = Raise ValueError
  /\ ~ (exists s, (dunder_str Scenario.demo w).1 = Ret (PyStr s))
  /\ (run_web_demo Scenario.demo PyNone PyNone w).1 = Raise ValueError
  /\ (run_web_demo Scenario.demo PyNone PyNone w).1 <> Raise TypeError.
Proof.
  repeat split; try reflexivity.
  - intros [s H]. discriminate H.
  - discriminate.
Qed.

(** A manifest that may not be read, or that stops being UTF-8, ends the
    call with the exception of [open] or of the decoder. *)
Example run_web_demo_unreadable :
  (run_web_demo Scenario.demo PyNone PyNone
     (Scenario.cpu_world (<["demo" := Dir None]> (<["demo/README.md" := Unreadable]> ∅)))).1
  = Raise (OSError "demo/README.md" "Permission denied")
  /\ (run_web_demo Scenario.demo PyNone PyNone
        (Scenario.cpu_world
           (<["demo" := Dir None]>
              (<["demo/README.md" := Undecodable ("title: Demo" +:+ Scenario.nl)]> ∅)))).1
     = Raise UnicodeDecodeError.
Proof. split; reflexivity. Qed.

(** Without the directory the manifest is [None], and the subscript fails
    the same way. *)
Example run_web_demo_not_cloned :
  let r := run_web_demo Scenario.demo PyNone PyNone (Scenario.t4_world ∅) in
  r.1 = Raise TypeError
  /\ trace r.2 = [SubprocessRun smi_query_argv;
                  Print (bold +:+ "The repo 'demo' has not been cloned yet." +:+ unbold)].
Proof. split; reflexivity. Qed.

(** ** The parser of the manifest *)

(** A line without a colon past its first character, or with the word
    Check, adds nothing. *)
Lemma readme_line_skipped (d : pydict) (line : string) :
  Str.find ":" line <= 0 \/ Str.contains "Check" line = true ->
  readme_line d line = Ret d.
Proof.
  intros [H | H]; unfold readme_line.
  - apply Z.ltb_ge in H. rewrite H. reflexivity.
  - rewrite H, orb_true_r. reflexivity.
Qed.

(** A line that passes the filter adds an entry only when it splits in
    two at its colons. *)
Lemma readme_line_split (d : pydict) (line : string) :
  0 < Str.find ":" line -> Str.contains "Check" line = false ->
  readme_line d line
  = match Str.split_go ":" O line with
    | [k; v] =>
        Ret (dict_set k (Str.replace (Str.of_char Str.LF) EmptyString (Str.strip v)) d)
    | _ => Raise ValueError
    end.
Proof.
  intros H1 H2. unfold readme_line. apply Z.ltb_lt in H1. rewrite H1, H2. reflexivity.
Qed.

Example readme_line_title :
  readme_line [] ("title: Demo" +:+ Scenario.nl) = Ret [("title", "Demo")].
Proof. reflexivity. Qed.

Example retrieve_readme_gradio :
  (retrieve_readme Scenario.demo "demo/README.md"
     (Scenario.cpu_world (Scenario.cloned Scenario.gradio_readme))).1
  = Ret [("title", "Demo"); ("sdk", "gradio"); ("app_file", "app.py")].
Proof. reflexivity. Qed.

(** C1.  A manifest line with a colon past its first character and
    without the word Check is split at every colon, not at the first: a
    value that holds a colon itself, such as a URL, makes the unpacking
    fail with [ValueError], and the parse yields no mapping at all. *)
Theorem retrieve_readme_second_colon :
  let line := "homepage: https://example.org" +:+ Scenario.nl in
  0 < Str.find ":" line
  /\ Str.contains "Check" line = false
  /\ Str.split_go ":" O line = ["homepage"; " https"; "//example.org" +:+ Scenario.nl]
  /\ readme_line [("title", "Demo")] line = Raise ValueError
  /\ (retrieve_readme Scenario.demo "demo/README.md"
        (Scenario.cpu_world (Scenario.cloned Scenario.link_readme))).1
     = Raise ValueError.
Proof. repeat split; reflexivity. Qed.

(** ** The demo on concrete notebooks *)

(** C2.  On a manifest without a title the demo fails before any launch,
    but with [TypeError], as on every manifest: the subscript is applied
    to the text of the mapping, so the missing key is never looked up and
    no [KeyError] arises. *)
Theorem run_web_demo_untitled :
  let w := Scenario.cpu_world (Scenario.cloned Scenario.untitled_readme) in
  let r := run_web_demo Scenario.demo PyNone PyNone w in
  (retrieve_readme Scenario.demo "demo/README.md" w).1
  = Ret [("sdk", "gradio"); ("app_file", "app.py")]
  /\ getitem (PyDict [("sdk", "gradio"); ("app_file", "app.py")]) "title"
     = Raise (KeyError "title")
  /\ (dunder_str Scenario.demo w).1 = Ret (PyStr "{'sdk': 'gradio', 'app_file': 'app.py'}")
  /\ r.1 = Raise TypeError
  /\ r.1 <> Raise (KeyError "title")
  /\ trace r.2 = [Print (bold +:+ "Not using the GPU" +:+ unbold)].
Proof. repeat split; try reflexivity. discriminate. Qed.

(** C3.  On a Gradio manifest with [app.py] and a title, the demo neither
    closes running instances nor starts [app.py]: it raises [TypeError] at
    the first subscript. *)
Theorem run_web_demo_gradio_no_launch :
  let w := Scenario.cpu_world (Scenario.cloned Scenario.gradio_readme) in
  let r := run_web_demo Scenario.demo PyNone PyNone w in
  (retrieve_readme Scenario.demo "demo/README.md" w).1
  = Ret [("title", "Demo"); ("sdk", "gradio"); ("app_file", "app.py")]
  /\ r.1 = Raise TypeError
  /\ trace r.2 = [Print (bold +:+ "Not using the GPU" +:+ unbold)]
  /\ forallb (fun e => negb (is_launch e)) (trace r.2) = true.
Proof. repeat split; reflexivity. Qed.

(** What the launch would be had the manifest reached it as a mapping:
    the dispatch itself is in place, behind the failing lines. *)
Example gradio_dispatch :
  let readme := PyDict [("title", "Demo"); ("sdk", "gradio"); ("app_file", "app.py")] in
  getitem readme "sdk" = Ret (PyStr "gradio")
  /\ getitem readme "app_file" = Ret (PyStr "app.py").
Proof. split; reflexivity. Qed.

(** The names [domain] and [region] are bound nowhere: the parameters are
    called [aws_domain] and [aws_region]. *)
Lemma load_name_domain (aws_domain aws_region readme : pyval) (w : world) :
  load_name (demo_locals aws_domain aws_region readme) "domain" w
  = (Raise (NameError "domain"), w)
  /\ load_name (demo_locals aws_domain aws_region readme) "region" w
     = (Raise (NameError "region"), w).
Proof. split; reflexivity. Qed.

(** Even with a mapping in hand, the lines after the title stop at the
    unbound name, before the URL and before any launch. *)
Lemma launch_demo_name_error (self : RepoHandler) (aws_domain aws_region readme : pyval)
    (w : world) :
  launch_demo self aws_domain aws_region readme w
  = (Raise (NameError "domain"),
     log [Print "Wait a few seconds, then click the link below to open your application:"] w).
Proof. reflexivity. Qed.

(** C5.  With both the domain and the region supplied, the access URL is
    not printed: the call has already failed at the subscript of the
    manifest. *)
Theorem run_web_demo_no_url :
  let w := Scenario.cpu_world (Scenario.cloned Scenario.gradio_readme) in
  let r := run_web_demo Scenario.demo (PyStr "abc123") (PyStr "us-east-2") w in
  studio_url "abc123" "us-east-2"
  = "https://abc123.studio.us-east-2.sagemaker.aws/studiolab/default/jupyter/proxy/6006/"
  /\ r.1 = Raise TypeError
  /\ trace r.2 = [Print (bold +:+ "Not using the GPU" +:+ unbold)]
  /\ ~ In (Print (bold +:+ studio_url "abc123" "us-east-2" +:+ unbold)) (trace r.2).
Proof.
  repeat split; try reflexivity. cbn. intros [H | []]. discriminate H.
Qed.

(** * Further properties of the methods *)

(** ** Counting and splitting *)

Lemma count_char_app (c : ascii) (a b : string) :
  count_char c (a +:+ b) = (count_char c a + count_char c b)%nat.
Proof.
  induction a as [|x a IH]; [reflexivity |].
  rewrite append_cons. cbn. rewrite IH. lia.
Qed.

Lemma contains_char_count (c : ascii) (s : string) :
  Str.contains (Str.of_char c) s = false <-> count_char c s = O.
Proof.
  induction s as [|x r IH].
  - split; reflexivity.
  - split.
    + intros H. apply contains_char_cons in H as [Hx Hr].
      cbn. rewrite Hx. apply IH, Hr.
    + cbn. destruct (Ascii.eqb c x) eqn:Hx; [discriminate |].
      intros H. apply IH in H. apply contains_false_find in H.
      apply contains_false_find. unfold Str.find in *. cbn. rewrite Hx. cbn.
      apply (find_from_absent _ _ 0 (0 + 1)); [lia | lia | exact H].
Qed.

Lemma split_go_length (c : ascii) (s : string) :
  length (Str.split_go (Str.of_char c) O s) = S (count_char c s).
Proof.
  induction s as [|x r IH]; [reflexivity |].
  cbn. destruct (Ascii.eqb c x); cbn.
  - rewrite IH. reflexivity.
  - destruct (Str.split_go (Str.of_char c) 0 r) as [|p ps]; [discriminate |].
    cbn in *. lia.
Qed.

Lemma find_char_app (c : ascii) (k v : string) (i : Z) :
  count_char c k = O ->
  Str.find_from (Str.of_char c) (k +:+ String c v) i = i + Z.of_nat (String.length k).
Proof.
  revert i. induction k as [|x k IH]; intros i H.
  - rewrite append_nil_l. cbn. rewrite Ascii.eqb_refl. cbn. lia.
  - rewrite append_cons. cbn in H.
    destruct (Ascii.eqb c x) eqn:Hx; [discriminate |].
    cbn. rewrite Hx. cbn. rewrite IH by exact H. cbn [String.length]. lia.
Qed.

Lemma find_char_positive (c : ascii) (s : string) :
  0 < Str.find (Str.of_char c) s -> (1 <= count_char c s)%nat.
Proof.
  intros H. destruct (count_char c s) eqn:E; [| lia].
  apply contains_char_count, contains_false_find in E. lia.
Qed.

Lemma split_go_cons (c x : ascii) (r : string) :
  Str.split_go (Str.of_char c) O (String x r)
  = if Ascii.eqb c x then EmptyString :: Str.split_go (Str.of_char c) O r
    else match Str.split_go (Str.of_char c) O r with
         | p :: ps => String x p :: ps
         | [] => [Str.of_char x]
         end.
Proof. cbn. destruct (Ascii.eqb c x); reflexivity. Qed.

Lemma last_cons_nonempty {A : Type} (x : A) (l : list A) (d : A) :
  l <> [] -> List.last (x :: l) d = List.last l d.
Proof. destruct l; [congruence | reflexivity]. Qed.

Lemma split_go_last (c : ascii) (a b d : string) :
  List.last (Str.split_go (Str.of_char c) O (a +:+ String c b)) d
  = List.last (Str.split_go (Str.of_char c) O b) d.
Proof.
  assert (N : forall s, Str.split_go (Str.of_char c) O s <> []).
  { intros s E. pose proof (split_go_length c s) as L. rewrite E in L. discriminate. }
  induction a as [|x a IH].
  - rewrite append_nil_l, split_go_cons, Ascii.eqb_refl.
    apply last_cons_nonempty, N.
  - rewrite append_cons, split_go_cons. destruct (Ascii.eqb c x).
    + rewrite last_cons_nonempty by apply N. exact IH.
    + pose proof (split_go_length c (a +:+ String c b)) as L.
      rewrite count_char_app in L. cbn in L. rewrite Ascii.eqb_refl in L.
      destruct (Str.split_go (Str.of_char c) 0 (a +:+ String c b)) as [|p [|q ps]];
        cbn in L; try lia.
      rewrite <- IH. reflexivity.
Qed.

(** ** Construction *)

(** X1.  [RepoHandler(url)] names the repository after what follows the
    last slash of the URL: the whole URL when it has no slash, the empty
    name when it ends in one.  It prints one line, chosen by the host. *)
Theorem init_last_segment (prefix name : string) (w : world) :
  Str.contains "/" name = false ->
  (init (prefix +:+ "/" +:+ name) w).1 = Ret (Handler (prefix +:+ "/" +:+ name) name)
  /\ (init name w).1 = Ret (Handler name name)
  /\ (init (prefix +:+ "/" +:+ name) w).2
     = log [Print (bold +:+ (if Str.contains "google.colab" (ipython w)
                             then "Running on Google Colab"
                             else "Running on SageMaker Studio Lab or locally")
                   +:+ unbold)] w.
Proof.
  intros H.
  change (prefix +:+ "/" +:+ name) with (prefix +:+ String "/" name).
  assert (L1 : List.last (Str.split_go "/" O (prefix +:+ String "/" name)) EmptyString = name).
  { change "/"%string with (Str.of_char "/") at 1.
    rewrite split_go_last, (split_go_no_sep _ _ H). reflexivity. }
  assert (L2 : List.last (Str.split_go "/" O name) EmptyString = name).
  { change "/"%string with (Str.of_char "/").
    rewrite (split_go_no_sep _ _ H). reflexivity. }
  unfold init, get_ipython_str, print, emit, bind, ret.
  destruct (Str.contains "google.colab" (ipython w)); cbn; rewrite ?L1, ?L2; auto.
Qed.

Lemma init_last_segment_witness :
  (init "https://huggingface.co/spaces/user/demo" Scenario.k80_world).1 = Ret Scenario.demo
  /\ (init "demo" Scenario.k80_world).1 = Ret (Handler "demo" "demo")
  /\ (init "https://huggingface.co/spaces/user/demo" Scenario.k80_world).2
     = log [Print (bold +:+ "Running on Google Colab" +:+ unbold)] Scenario.k80_world.
Proof.
  apply (init_last_segment "https://huggingface.co/spaces/user" "demo" Scenario.k80_world).
  reflexivity.
Defined.

(** ** The parser, line by line *)

Lemma dict_get_set_eq (k v : string) (d : pydict) : dict_get k (dict_set k v d) = Some v.
Proof.
  induction d as [|[k' v'] d IH]; cbn.
  - rewrite bool_decide_eq_true_2 by reflexivity. reflexivity.
  - destruct (bool_decide (k' = k)) eqn:E; cbn; rewrite E; [reflexivity | exact IH].
Qed.

Lemma dict_get_set_ne (k k' v : string) (d : pydict) :
  k' <> k -> dict_get k' (dict_set k v d) = dict_get k' d.
Proof.
  intros N. induction d as [|[k0 v0] d IH]; cbn.
  - rewrite bool_decide_eq_false_2 by congruence. reflexivity.
  - destruct (bool_decide (k0 = k)) eqn:E; cbn.
    + apply bool_decide_eq_true in E. subst k0.
      rewrite !bool_decide_eq_false_2 by congruence. reflexivity.
    + destruct (bool_decide (k0 = k')); [reflexivity | exact IH].
Qed.

Lemma colon_char : ":"%string = Str.of_char ":".
Proof. reflexivity. Qed.

(** A line [k:v] with one colon, after a key that is not empty. *)
Lemma one_colon_line (k v : string) :
  Str.is_empty k = false -> count_char ":" k = O -> count_char ":" v = O ->
  0 < Str.find ":" (k +:+ ":" +:+ v)
  /\ Str.split_go ":" O (k +:+ ":" +:+ v) = [k; v].
Proof.
  intros Hk Ck Cv. change (k +:+ ":" +:+ v) with (k +:+ String ":" v).
  rewrite colon_char. split.
  - unfold Str.find. rewrite find_char_app by exact Ck.
    destruct k; [discriminate | cbn; lia].
  - rewrite split_go_app by (apply contains_char_count; exact Ck).
    rewrite split_go_no_sep by (apply contains_char_count; exact Cv). reflexivity.
Qed.

Lemma readme_line_one_colon (d : pydict) (k v : string) :
  Str.is_empty k = false -> count_char ":" k = O -> count_char ":" v = O ->
  Str.contains "Check" (k +:+ ":" +:+ v) = false ->
  readme_line d (k +:+ ":" +:+ v)
  = Ret (dict_set k (Str.replace (Str.of_char Str.LF) EmptyString (Str.strip v)) d).
Proof.
  intros Hk Ck Cv Hc. destruct (one_colon_line k v Hk Ck Cv) as [F S].
  rewrite (readme_line_split d _ F Hc), S. reflexivity.
Qed.

(** X2.  A line [k:v] with a single colon, a key that is not empty and no
    Check in it sets [k] to the text after the colon, stripped and rid of
    newlines; the key is taken as it stands, blanks included. *)
Theorem readme_line_entry (d : pydict) (k v : string) :
  Str.is_empty k = false -> count_char ":" k = O -> count_char ":" v = O ->
  Str.contains "Check" (k +:+ ":" +:+ v) = false ->
  readme_line d (k +:+ ":" +:+ v)
  = Ret (dict_set k (Str.replace (Str.of_char Str.LF) EmptyString (Str.strip v)) d).
Proof. apply readme_line_one_colon. Qed.

Lemma readme_line_entry_witness :
  readme_line [("sdk", "static")] (" sdk:  gradio " +:+ Scenario.nl)
  = Ret [("sdk", "static"); (" sdk", "gradio")].
Proof.
  apply (readme_line_entry [("sdk", "static")] " sdk" ("  gradio " +:+ Scenario.nl));
    reflexivity.
Defined.

Lemma count_lstrip (c : ascii) (s : string) :
  (count_char c (Str.lstrip s) <= count_char c s)%nat.
Proof.
  induction s as [|x r IH]; cbn; [lia |].
  destruct (Str.isspace x); cbn; lia.
Qed.

Lemma count_rstrip (c : ascii) (s : string) :
  (count_char c (Str.rstrip s) <= count_char c s)%nat.
Proof.
  induction s as [|x r IH]; cbn; [lia |].
  destruct (Str.isspace x && Str.is_empty (Str.rstrip r)); cbn; lia.
Qed.

Lemma replace_absent (c : ascii) (s : string) :
  count_char c s = O -> Str.replace (Str.of_char c) EmptyString s = s.
Proof.
  intros H. unfold Str.replace. cbn [Str.is_empty Str.of_char].
  change (String c EmptyString) with (Str.of_char c).
  rewrite split_go_no_sep by (apply contains_char_count; exact H). reflexivity.
Qed.

Lemma lstrip_snoc_space (v : string) (c : ascii) :
  Str.isspace c = true ->
  Str.lstrip (v +:+ Str.of_char c)
  = if Str.is_empty (Str.lstrip v) then EmptyString else Str.lstrip v +:+ Str.of_char c.
Proof.
  intros Hc. induction v as [|x r IH].
  - rewrite append_nil_l. cbn. rewrite Hc. reflexivity.
  - rewrite append_cons. cbn. destruct (Str.isspace x); [exact IH | reflexivity].
Qed.

Lemma strip_snoc_space (v : string) (c : ascii) :
  Str.isspace c = true -> Str.strip (v +:+ Str.of_char c) = Str.strip v.
Proof.
  intros Hc. unfold Str.strip. rewrite (lstrip_snoc_space v c Hc).
  destruct (Str.lstrip v) eqn:E; cbn [Str.is_empty]; [reflexivity |].
  apply rstrip_snoc_space, Hc.
Qed.

(** X3.  For a line as the file iterator yields it, with its newline at
    the end and none inside, the value stored is exactly the stripped text
    after the colon: the removal of newlines that follows the strip finds
    nothing to remove, and the same line without its newline (the last
    line of a file) gives the same entry. *)
Theorem readme_line_newline (d : pydict) (k v : string) :
  Str.is_empty k = false -> count_char ":" k = O -> count_char ":" v = O ->
  count_char Str.LF v = O ->
  Str.contains "Check" (k +:+ ":" +:+ v +:+ Str.of_char Str.LF) = false ->
  Str.contains "Check" (k +:+ ":" +:+ v) = false ->
  readme_line d (k +:+ ":" +:+ v +:+ Str.of_char Str.LF) = Ret (dict_set k (Str.strip v) d)
  /\ readme_line d (k +:+ ":" +:+ v) = Ret (dict_set k (Str.strip v) d).
Proof.
  intros Hk Ck Cv Nv Hc1 Hc2.
  assert (R : Str.replace (Str.of_char Str.LF) EmptyString (Str.strip v) = Str.strip v).
  { apply replace_absent. unfold Str.strip.
    pose proof (count_rstrip Str.LF (Str.lstrip v)).
    pose proof (count_lstrip Str.LF v). lia. }
  split.
  - rewrite (readme_line_one_colon d k (v +:+ Str.of_char Str.LF) Hk Ck); [| | exact Hc1].
    + rewrite strip_snoc_space by reflexivity. rewrite R. reflexivity.
    + rewrite count_char_app, Cv. reflexivity.
  - rewrite (readme_line_one_colon d k v Hk Ck Cv Hc2), R. reflexivity.
Qed.

Lemma readme_line_newline_witness :
  readme_line [] ("app_file: app.py" +:+ Str.of_char Str.LF) = Ret [("app_file", "app.py")]
  /\ readme_line [] "app_file: app.py" = Ret [("app_file", "app.py")].
Proof.
  apply (readme_line_newline [] "app_file" " app.py"); reflexivity.
Defined.

(** X4.  A line makes the parse fail with [ValueError] exactly when it has
    a colon past its first character, no Check and at least two colons;
    every other line is read or skipped. *)
Theorem readme_line_value_error (d : pydict) (line : string) :
  readme_line d line = Raise ValueError
  <-> 0 < Str.find ":" line /\ Str.contains "Check" line = false
      /\ (2 <= count_char ":" line)%nat.
Proof.
  pose proof (split_go_length ":" line) as L. rewrite <- colon_char in L.
  split.
  - unfold readme_line. destruct (0 <? Str.find ":" line) eqn:F; cbn; [| discriminate].
    destruct (Str.contains "Check" line) eqn:C; [discriminate |].
    apply Z.ltb_lt in F. pose proof (find_char_positive ":" line F) as P.
    destruct (Str.split_go ":" 0 line) as [|a [|b [|c l]]]; cbn in L;
      intros H; try discriminate H; repeat split; try assumption; lia.
  - intros (F & C & N). rewrite (readme_line_split d line F C).
    destruct (Str.split_go ":" 0 line) as [|a [|b [|c l]]]; cbn in L;
      try reflexivity; lia.
Qed.

Lemma readme_loop_app (l1 l2 : list string) (d : pydict) :
  readme_loop (l1 ++ l2) d
  = match readme_loop l1 d with
    | Ret d1 => readme_loop l2 d1
    | other => other
    end.
Proof.
  revert d. induction l1 as [|l l1 IH]; intros d; cbn; [reflexivity |].
  destruct (readme_line d l); [apply IH | reflexivity | reflexivity].
Qed.

(** X5.  In the parsed manifest a later line overrides an earlier one with
    the same key and leaves the other keys as they were. *)
Theorem readme_loop_last_wins (lines : list string) (d0 d1 : pydict) (k v : string) :
  readme_loop lines d0 = Ret d1 ->
  Str.is_empty k = false -> count_char ":" k = O -> count_char ":" v = O ->
  Str.contains "Check" (k +:+ ":" +:+ v) = false ->
  exists d2,
    readme_loop (lines ++ [k +:+ ":" +:+ v]) d0 = Ret d2
    /\ dict_get k d2 = Some (Str.replace (Str.of_char Str.LF) EmptyString (Str.strip v))
    /\ forall k', k' <> k -> dict_get k' d2 = dict_get k' d1.
Proof.
  intros H Hk Ck Cv Hc. eexists. rewrite readme_loop_app, H. cbn [readme_loop].
  rewrite (readme_line_one_colon d1 k v Hk Ck Cv Hc).
  split; [reflexivity |]. split; [apply dict_get_set_eq |].
  intros k' N. apply dict_get_set_ne, N.
Qed.

Lemma readme_loop_last_wins_witness :
  exists d2,
    readme_loop (["sdk: static" +:+ Scenario.nl; "title: Demo" +:+ Scenario.nl]
                 ++ ["sdk" +:+ ":" +:+ " gradio"]) [] = Ret d2
    /\ dict_get "sdk" d2 = Some "gradio"
    /\ forall k', k' <> "sdk" ->
         dict_get k' d2 = dict_get k' [("sdk", "static"); ("title", "Demo")].
Proof.
  apply (readme_loop_last_wins ["sdk: static" +:+ Scenario.nl; "title: Demo" +:+ Scenario.nl]
           [] [("sdk", "static"); ("title", "Demo")] "sdk" " gradio"); reflexivity.
Defined.

(** ** Cloning *)


(** ** Installing *)

Lemma install_xformers_known_run (fuel : nat) (self : RepoHandler) (w : world) (g : string) :
  List.find (fun m => Str.contains m (smi_summary w)) known_models = Some g ->
  install_xformers (S fuel) self w
  = (Ret tt,
     log [SubprocessRun ["pip"; "install"; "-U"; "--pre"; "triton"];
          GetOutput "nvidia-smi";
          SubprocessRun ["pip"; "install"; "-q"; wheel_url g]] w).
Proof.
  unfold known_models. cbn [List.find]. intros H.
  unfold install_xformers, detect_gpu. run.
  destruct (Str.contains "T4" (smi_summary w));
    [| destruct (Str.contains "P100" (smi_summary w));
       [| destruct (Str.contains "V100" (smi_summary w));
          [| destruct (Str.contains "A100" (smi_summary w)); [| discriminate]]]];
    injection H as <-;
    repeat (first [rewrite bool_decide_eq_true_2 by reflexivity
                  | rewrite bool_decide_eq_false_2 by discriminate]);
    unfold log; cbn; rewrite <- !app_assoc; reflexivity.
Qed.

(** X8.  When the summary of [nvidia-smi] names a known model,
    [install_xformers] leaves its loop at the first turn, without a
    warning, and installs the wheel of the first model found in the order
    T4, P100, V100, A100. *)
Theorem install_xformers_known (fuel : nat) (self : RepoHandler) (w : world) (g : string) :
  List.find (fun m => Str.contains m (smi_summary w)) known_models = Some g ->
  install_xformers (S fuel) self w
  = (Ret tt,
     log [SubprocessRun ["pip"; "install"; "-U"; "--pre"; "triton"];
          GetOutput "nvidia-smi";
          SubprocessRun ["pip"; "install"; "-q"; wheel_url g]] w).
Proof. apply install_xformers_known_run. Qed.

Lemma install_xformers_known_witness :
  install_xformers 1 Scenario.demo (Scenario.t4_world ∅)
  = (Ret tt,
     log [SubprocessRun ["pip"; "install"; "-U"; "--pre"; "triton"];
          GetOutput "nvidia-smi";
          SubprocessRun ["pip"; "install"; "-q"; wheel_url "T4"]] (Scenario.t4_world ∅)).
Proof.
  apply (install_xformers_known 0 Scenario.demo (Scenario.t4_world ∅) "T4"). reflexivity.
Defined.

(** X9.  [install_xformers] never raises: given at least one turn of its
    loop it returns exactly when one of the four model names occurs in the
    summary, and otherwise it is still looping. *)
Theorem install_xformers_returns_iff (fuel : nat) (self : RepoHandler) (w : world) :
  ((install_xformers (S fuel) self w).1 = Ret tt
   <-> existsb (fun m => Str.contains m (smi_summary w)) known_models = true)
  /\ ((install_xformers (S fuel) self w).1 = Spin
      <-> existsb (fun m => Str.contains m (smi_summary w)) known_models = false)
  /\ forall e, (install_xformers (S fuel) self w).1 <> Raise e.
Proof.
  destruct (List.find (fun m => Str.contains m (smi_summary w)) known_models) as [g|] eqn:F.
  - rewrite (install_xformers_known_run fuel self w g F). cbn [fst].
    assert (E : existsb (fun m => Str.contains m (smi_summary w)) known_models = true).
    { apply existsb_exists. apply find_some in F. exists g. exact F. }
    rewrite E. repeat split; try discriminate; auto.
  - assert (E : existsb (fun m => Str.contains m (smi_summary w)) known_models = false).
    { apply not_true_is_false. intros [m [Hm Hc]]%existsb_exists.
      exact (eq_true_false_abs _ Hc (find_none _ _ F m Hm)). }
    rewrite E. unfold known_models in F. cbn [List.find] in F.
    destruct (Str.contains "T4" (smi_summary w)) eqn:H1; [discriminate |].
    destruct (Str.contains "P100" (smi_summary w)) eqn:H2; [discriminate |].
    destruct (Str.contains "V100" (smi_summary w)) eqn:H3; [discriminate |].
    destruct (Str.contains "A100" (smi_summary w)) eqn:H4; [discriminate |].
    generalize (S fuel) as n. intros n. unfold install_xformers. run.
    rewrite (detect_gpu_none _ H1 H2 H3 H4), xformers_loop_unbound. cbn.
    repeat split; try discriminate; auto.
Qed.

(** X10.  A requirements path that is given is handed to [pip] as it is,
    and the accelerated-attention install, when asked for, follows it; an
    empty path counts as none given. *)
Theorem install_requirements_explicit
    (fuel : nat) (self : RepoHandler) (p : string) (with_xformers : bool) (w : world) :
  Str.is_empty p = false ->
  install_requirements fuel self (Some p) false w
  = (Ret tt, log [SubprocessRun ["pip"; "install"; "-r"; p]] w)
  /\ install_requirements fuel self (Some p) true w
     = install_xformers fuel self (log [SubprocessRun ["pip"; "install"; "-r"; p]] w)
  /\ install_requirements fuel self (Some EmptyString) with_xformers w
     = install_requirements fuel self None with_xformers w.
Proof.
  intros H. unfold install_requirements. rewrite H. repeat split; reflexivity.
Qed.

Lemma install_requirements_explicit_witness :
  install_requirements 0 Scenario.demo (Some "demo/requirements.txt") false
    (Scenario.cpu_world ∅)
  = (Ret tt, log [SubprocessRun ["pip"; "install"; "-r"; "demo/requirements.txt"]]
               (Scenario.cpu_world ∅)).
Proof.
  apply (install_requirements_explicit 0 Scenario.demo "demo/requirements.txt" false
           (Scenario.cpu_world ∅)).
  reflexivity.
Defined.

(** ** The GPU memory map in general *)

Lemma append_inj_l (a b c : string) : a +:+ b = a +:+ c -> b = c.
Proof.
  induction a as [|x a IH]; [intros H; exact H |].
  rewrite !append_cons. intros H. injection H as H. apply IH, H.
Qed.

Lemma append_length (a b : string) :
  String.length (a +:+ b) = (String.length a + String.length b)%nat.
Proof. induction a as [|x a IH]; [reflexivity |]. rewrite append_cons. cbn. rewrite IH. lia. Qed.

Lemma append_inj_r (a b c : string) : a +:+ c = b +:+ c -> a = b.
Proof.
  revert b. induction a as [|x a IH]; intros [|y b] H.
  - reflexivity.
  - exfalso. apply (f_equal String.length) in H.
    rewrite append_nil_l, append_length in H. cbn in H. lia.
  - exfalso. apply (f_equal String.length) in H.
    rewrite append_nil_l, append_length in H. cbn in H. lia.
  - rewrite !append_cons in H. injection H as -> H. f_equal. apply IH, H.
Qed.

Lemma of_nat_inj (i j : nat) : Str.of_nat i = Str.of_nat j -> i = j.
Proof.
  unfold Str.of_nat. intros H.
  assert (N : forall n, Nat.to_uint n <> Decimal.Nil).
  { intros n. rewrite <- (DecimalNat.Unsigned.of_to n) at 1.
    rewrite DecimalNat.Unsigned.to_of. apply DecimalFacts.unorm_nonnil. }
  apply DecimalNat.Unsigned.to_uint_inj.
  pose proof (NilZero.usu _ (N i)) as Hi. pose proof (NilZero.usu _ (N j)) as Hj.
  rewrite H in Hi. congruence.
Qed.

Lemma gpu_label_inj (i j : nat) : gpu_label i = gpu_label j -> i = j.
Proof.
  unfold gpu_label. intros H.
  apply append_inj_l, append_inj_l, append_inj_r in H. apply of_nat_inj, H.
Qed.

Lemma dict_set_fresh (k v : string) (d : pydict) :
  ~ In k (dict_keys d) -> dict_set k v d = d ++ [(k, v)].
Proof.
  induction d as [|[k' v'] d IH]; cbn; [reflexivity |]. intros N.
  rewrite bool_decide_eq_false_2 by (intros ->; apply N; left; reflexivity).
  rewrite IH by (intros I; apply N; right; exact I). reflexivity.
Qed.

Lemma fold_labels (l : list string) (s : nat) (acc : pydict) :
  (forall k, In k (dict_keys acc) -> exists i, (i < s)%nat /\ k = gpu_label i) ->
  fold_left (fun d im => dict_set (gpu_label im.1) im.2 d)
            (combine (seq s (length l)) l) acc
  = acc ++ map (fun im => (gpu_label im.1, im.2)) (combine (seq s (length l)) l).
Proof.
  revert s acc. induction l as [|m l IH]; intros s acc Inv; cbn.
  - rewrite app_nil_r. reflexivity.
  - rewrite dict_set_fresh.
    + rewrite IH.
      * rewrite <- app_assoc. reflexivity.
      * intros k. unfold dict_keys. rewrite map_app, in_app_iff. cbn.
        intros [I | [<- | []]].
        -- destruct (Inv k I) as (i & Hi & ->). exists i. split; [lia | reflexivity].
        -- exists s. split; [lia | reflexivity].
    + intros I. destruct (Inv _ I) as (i & Hi & E). apply gpu_label_inj in E. lia.
Qed.

Lemma labels_nodup (l : list string) (s : nat) :
  NoDup (dict_keys (map (fun im => (gpu_label im.1, im.2)) (combine (seq s (length l)) l))).
Proof.
  revert s. induction l as [|m l IH]; intros s; cbn; constructor.
  - unfold dict_keys. rewrite map_map. cbn. intros I. apply list_elem_of_In in I.
    apply in_map_iff in I as ([i m'] & E & I). cbn in E.
    apply gpu_label_inj in E. subst i.
    apply in_combine_l, in_seq in I. lia.
  - apply IH.
Qed.

(** X11.  Whatever the query prints, the memory map has one entry for each
    line of the stripped output, in order, under the labels of 0, 1, 2 and
    so on: the labels never collide, so no line is lost. *)
Theorem gpu_memory_map_entries (self : RepoHandler) (w : world) (out : string) :
  smi_csv w = Some out ->
  exists d,
    (get_gpu_memory_map self w).1 = Ret d
    /\ d = map (fun im => (gpu_label im.1, im.2))
               (enumerate (Str.split_go linesep O (Str.strip out)))
    /\ length d = S (count_char Str.LF (Str.strip out))
    /\ NoDup (dict_keys d).
Proof.
  intros H. eexists. split; [| split; [reflexivity | split]].
  - run. rewrite H. cbn. unfold enumerate.
    rewrite (fold_labels _ 0 []) by (intros k []). reflexivity.
  - unfold enumerate. rewrite length_map, length_combine, length_seq, Nat.min_id.
    apply split_go_length.
  - apply labels_nodup.
Qed.

Lemma gpu_memory_map_entries_witness :
  exists d,
    (get_gpu_memory_map Scenario.demo Scenario.k80_world).1 = Ret d
    /\ d = map (fun im => (gpu_label im.1, im.2))
               (enumerate (Str.split_go linesep O
                             (Str.strip ("Tesla K80, 11441 MiB, 11441 MiB" +:+ Scenario.nl))))
    /\ length d = S (count_char Str.LF
                       (Str.strip ("Tesla K80, 11441 MiB, 11441 MiB" +:+ Scenario.nl)))
    /\ NoDup (dict_keys d).
Proof.
  apply (gpu_memory_map_entries Scenario.demo Scenario.k80_world
           ("Tesla K80, 11441 MiB, 11441 MiB" +:+ Scenario.nl)).
  reflexivity.
Defined.

Lemma lstrip_all_space (s : string) : all_space s = true -> Str.lstrip s = EmptyString.
Proof.
  induction s as [|c r IH]; [reflexivity |]. cbn.
  intros [Hc Hr]%andb_true_iff. rewrite Hc. apply IH, Hr.
Qed.

(** X12.  When the query prints nothing but blanks, the map is not empty:
    it holds the single label of index 0 with an empty record. *)
Theorem gpu_memory_map_blank (self : RepoHandler) (w : world) (out : string) :
  smi_csv w = Some out -> all_space out = true ->
  (get_gpu_memory_map self w).1 = Ret [(gpu_label 0, EmptyString)].
Proof.
  intros H B. run. rewrite H. cbn. unfold Str.strip.
  rewrite (lstrip_all_space _ B). reflexivity.
Qed.

Lemma gpu_memory_map_blank_witness :
  (get_gpu_memory_map Scenario.demo
     (World ∅ EmptyString true (Some (" " +:+ Scenario.nl)) EmptyString [])).1
  = Ret [(gpu_label 0, EmptyString)].
Proof.
  apply (gpu_memory_map_blank Scenario.demo
           (World ∅ EmptyString true (Some (" " +:+ Scenario.nl)) EmptyString [])
           (" " +:+ Scenario.nl)); reflexivity.
Defined.

(** X13.  With CUDA present and the query failing, [run_web_demo] ends
    with the [CalledProcessError] of the query: the manifest is not read
    and nothing is printed. *)
Theorem run_web_demo_query_failure
    (self : RepoHandler) (aws_domain aws_region : pyval) (w : world) :
  cuda w = true -> smi_csv w = None ->
  get_gpu_memory_map self w
  = (Raise (CalledProcessError smi_query_argv), log [SubprocessRun smi_query_argv] w)
  /\ run_web_demo self aws_domain aws_region w
     = (Raise (CalledProcessError smi_query_argv), log [SubprocessRun smi_query_argv] w).
Proof.
  intros Hc Hs. split.
  - run. rewrite Hs. reflexivity.
  - unfold run_web_demo, get_gpu_memory_map, smi_query, cuda_is_available, bind, emit.
    rewrite Hc. cbn. rewrite Hs. reflexivity.
Qed.

Lemma run_web_demo_query_failure_witness :
  get_gpu_memory_map Scenario.demo (World ∅ EmptyString true None EmptyString [])
  = (Raise (CalledProcessError smi_query_argv),
     log [SubprocessRun smi_query_argv] (World ∅ EmptyString true None EmptyString []))
  /\ run_web_demo Scenario.demo PyNone PyNone (World ∅ EmptyString true None EmptyString [])
     = (Raise (CalledProcessError smi_query_argv),
        log [SubprocessRun smi_query_argv] (World ∅ EmptyString true None EmptyString [])).
Proof.
  apply (run_web_demo_query_failure Scenario.demo PyNone PyNone
           (World ∅ EmptyString true None EmptyString [])); reflexivity.
Defined.

(** ** Installing on an unknown GPU *)

(** X15.  Asked for the accelerated-attention install on a GPU that is
    none of the four models, [install_requirements] runs [pip] on the
    requirements and then waits for ever. *)
Theorem install_requirements_unknown_gpu
    (fuel : nat) (self : RepoHandler) (p : string) (w : world) :
  Str.is_empty p = false ->
  existsb (fun m => Str.contains m (smi_summary w)) known_models = false ->
  (install_requirements fuel self (Some p) true w).1 = Spin
  /\ trace (install_requirements fuel self (Some p) true w).2
     = trace w
       ++ [SubprocessRun ["pip"; "install"; "-r"; p];
           SubprocessRun ["pip"; "install"; "-U"; "--pre"; "triton"];
           GetOutput "nvidia-smi"]
       ++ rounds fuel.
Proof.
  intros Hp E. unfold known_models in E. cbn [existsb] in E.
  rewrite !orb_false_iff in E. destruct E as (H1 & H2 & H3 & H4 & _).
  unfold install_requirements. rewrite Hp. unfold install_xformers. run.
  rewrite (detect_gpu_none _ H1 H2 H3 H4), xformers_loop_unbound. cbn.
  split; [reflexivity |]. rewrite <- !app_assoc. reflexivity.
Qed.

Lemma install_requirements_unknown_gpu_witness :
  (install_requirements 2 Scenario.demo (Some "demo/requirements.txt") true
     Scenario.k80_world).1 = Spin
  /\ trace (install_requirements 2 Scenario.demo (Some "demo/requirements.txt") true
              Scenario.k80_world).2
     = [SubprocessRun ["pip"; "install"; "-r"; "demo/requirements.txt"];
        SubprocessRun ["pip"; "install"; "-U"; "--pre"; "triton"];
        GetOutput "nvidia-smi"] ++ rounds 2.
Proof.
  apply (install_requirements_unknown_gpu 2 Scenario.demo "demo/requirements.txt"
           Scenario.k80_world); reflexivity.
Defined.

(** ** After the title *)

(** X16.  The lines of [run_web_demo] after the title read the names
    [domain] and [region], which nothing binds (the parameters are
    [aws_domain] and [aws_region]): whatever the manifest and the
    arguments, they print the waiting message and raise [NameError],
    before the URL and before any launch. *)
Theorem launch_demo_unbound_name
    (self : RepoHandler) (aws_domain aws_region readme : pyval) (w : world) :
  (launch_demo self aws_domain aws_region readme w).1 = Raise (NameError "domain")
  /\ trace (launch_demo self aws_domain aws_region readme w).2
     = trace w
       ++ [Print "Wait a few seconds, then click the link below to open your application:"]
  /\ fs (launch_demo self aws_domain aws_region readme w).2 = fs w.
Proof. repeat split; reflexivity. Qed.
